(** * UnifyGenerator: a shallow embedding of [unify.py]

    The adapter is glue around four collaborators that live outside the
    repository: Haystack's [Secret], Haystack's serialization helpers, the
    [Unify] client class and the client's [generate] method.  They are
    section variables here; every theorem below therefore holds for any
    behaviour of the collaborators.  Module [Stub] instantiates them with
    small doubles so that the adapter can be run on concrete inputs. *)

From Stdlib Require Import ZArith String SpecFloat.
From stdpp Require Import base option gmap strings list fin_maps.

Set Warnings "-register-all".
Open Scope string_scope.

(** ** Python values

    Values of type [Any] as the adapter meets them: option values, the
    provider's response, the exported state.  They are immutable trees;
    the dictionaries that the adapter receives by reference live in the
    heap (see [object] below). *)

Inductive pyval : Type :=
| PyNone
| PyBool (b : bool)
| PyInt (z : Z)
| PyFloat (f : spec_float)
| PyStr (s : string)
| PyList (l : list pyval)
| PyDict (d : gmap string pyval).

(** ** Exceptions and results *)

Inductive exn : Type :=
| Exn (cls : string) (msg : string).

Definition exn_class (e : exn) : string :=
  match e with Exn cls _ => cls end.

Definition NameError (name : string) : exn :=
  Exn "NameError" ("name '" ++ name ++ "' is not defined").
Definition KeyError (key : string) : exn :=
  Exn "KeyError" key.
Definition TypeError (msg : string) : exn :=
  Exn "TypeError" msg.
Definition AttributeError (attr : string) : exn :=
  Exn "AttributeError" attr.

Inductive result (A : Type) : Type :=
| Ok (a : A)
| Raise (e : exn).
Arguments Ok {A} a.
Arguments Raise {A} e.

Definition result_bind {A B} (r : result A) (k : A -> result B) : result B :=
  match r with
  | Ok a => k a
  | Raise e => Raise e
  end.

(** [r] is an exception of class [cls]. *)
Definition raises {A} (r : result A) (cls : string) : Prop :=
  exists msg, r = Raise (Exn cls msg).

(** [v[key]] for a string key: only a dict can be subscripted by a string. *)
Definition getitem (v : pyval) (key : string) : result pyval :=
  match v with
  | PyDict d =>
      match d !! key with
      | Some x => Ok x
      | None => Raise (KeyError key)
      end
  | _ => Raise (TypeError "object is not subscriptable by str")
  end.

(** [v.get(key, default)]. *)
Definition dict_get (v : pyval) (key : string) (default : pyval) : result pyval :=
  match v with
  | PyDict d =>
      match d !! key with
      | Some x => Ok x
      | None => Ok default
      end
  | _ => Raise (AttributeError "get")
  end.

(** [{**a, **b}]: the entries of [a], overwritten and extended by those of
    [b].  stdpp's union is left-biased, hence [b ∪ a]. *)
Definition py_dict_merge (a b : gmap string pyval) : gmap string pyval :=
  b ∪ a.

(** ** The module namespace

    The names bound at module level by lines 1-9 of [unify.py].  No Python
    builtin is called [serialize_callable] or [deserialize_secrets_inplace],
    so a name missing from this list is a [NameError] when it is loaded. *)
Definition module_globals : list string :=
  [ "Any"; "Callable"; "ClassVar"; "Dict"; "List"; "Optional";
    "component"; "default_from_dict"; "default_to_dict"; "logging";
    "Secret"; "Unify"; "logger"; "UnifyGenerator" ].

Definition is_bound (name : string) : bool :=
  bool_decide (name ∈ module_globals).

(** [ALLOWED_PARAMS], line 14. *)
Definition ALLOWED_PARAMS : list string := ["max_tokens"; "temperature"].

Definition loc : Type := positive.

Section Adapter.

(** [World] is everything outside the process: the environment variables
    and the provider behind the network. *)
Context {World Secret Callable Client : Type}.

(** The attributes set by [__init__], lines 31-35. *)
Record UnifyGenerator : Type := mkUnifyGenerator {
  api_key : Secret;
  model : string;
  generation_kwargs : loc;
  streaming_callback : option Callable;
  client : Client
}.

Inductive object : Type :=
| ODict (d : gmap string pyval)
| OInstance (g : UnifyGenerator).

Record state : Type := mkState {
  heap : gmap loc object;
  world : World
}.

(** State and exceptions; the state survives a raise. *)
Definition M (A : Type) : Type := state -> result A * state.

Definition ret {A} (a : A) : M A := fun st => (Ok a, st).

Definition raise {A} (e : exn) : M A := fun st => (Raise e, st).

Definition bind {A B} (m : M A) (k : A -> M B) : M B :=
  fun st =>
    match m st with
    | (Ok a, st') => k a st'
    | (Raise e, st') => (Raise e, st')
    end.

Notation "x <- m ;; k" := (bind m (fun x => k))
  (at level 100, m at next level, right associativity).
Notation "m ;;; k" := (bind m (fun _ => k))
  (at level 100, right associativity).

Definition lift {A} (r : result A) : M A := fun st => (r, st).

(** A collaborator that only reads the world. *)
Definition read_world {A} (f : World -> result A) : M A :=
  fun st => (f (world st), st).

(** A collaborator that may change the world. *)
Definition call_world {A} (f : World -> result A * World) : M A :=
  fun st =>
    let '(r, w) := f (world st) in
    (r, {| heap := heap st; world := w |}).

Definition alloc (o : object) : M loc :=
  fun st =>
    let l := fresh (dom (heap st)) in
    (Ok l, {| heap := <[l := o]> (heap st); world := world st |}).

(** Reading a reference as a mapping, as [**x] and [x.items()] do. *)
Definition load_dict (l : loc) : M (gmap string pyval) :=
  fun st =>
    match heap st !! l with
    | Some (ODict d) => (Ok d, st)
    | _ => (Raise (TypeError "object is not a mapping"), st)
    end.

(** Reading the attributes of [self]. *)
Definition load_self (self : loc) : M UnifyGenerator :=
  fun st =>
    match heap st !! self with
    | Some (OInstance g) => (Ok g, st)
    | _ => (Raise (AttributeError "self"), st)
    end.

(** Loading a global name (before the arguments of a call are
    evaluated). *)
Definition load_global (name : string) : M unit :=
  if is_bound name then ret tt else raise (NameError name).

(** [x or {}] for an optional reference [x]: [None] and the empty dict
    are falsy, every other object is returned as it is. *)
Definition or_new_dict (x : option loc) : M loc :=
  match x with
  | None => alloc (ODict ∅)
  | Some l =>
      fun st =>
        match heap st !! l with
        | Some (ODict d) =>
            if decide (d = ∅) then alloc (ODict ∅) st else (Ok l, st)
        | _ => (Ok l, st)
        end
  end.

(** *** Collaborators *)

(** [Secret.from_env_var(name)], [secret.resolve_value()] and
    [secret.to_dict()]. *)
Variable Secret_from_env_var : string -> Secret.
Variable resolve_value : Secret -> World -> result (option string).
Variable Secret_to_dict : Secret -> result pyval.

(** [Unify(model=..., api_key=...)] and [client.generate(prompt=..., **kwargs)]. *)
Variable Unify : string -> option string -> World -> result Client * World.
Variable generate :
  Client -> string -> gmap string pyval -> World -> result pyval * World.

(** [bool(callback)]. *)
Variable callable_truthy : Callable -> bool.

(** [default_to_dict(self, **init_parameters)]. *)
Variable default_to_dict : gmap string pyval -> pyval.

(** What the two helpers that the module never imports would do if their
    names were bound, and [default_from_dict(cls, data)]. *)
Variable serialize_callable : Callable -> result pyval.
Variable deserialize_secrets_inplace :
  pyval -> list string -> result (gmap string (pyval + Secret)).
Variable default_from_dict :
  pyval -> gmap string (pyval + Secret) -> M loc.

(** *** [__init__], lines 16-35

    An omitted argument is [None]; [api_key] and [model] then take the
    defaults of the signature. *)
Definition __init__
    (api_key : option Secret) (model : option string)
    (streaming_callback : option Callable) (generation_kwargs : option loc)
    : M loc :=
  let api_key := default (Secret_from_env_var "UNIFY_API_KEY") api_key in
  let model := default "mistral-7b-instruct-v0.2@fireworks-ai" model in
  generation_kwargs <- or_new_dict generation_kwargs ;;
  load_global "Unify" ;;;
  key <- read_world (resolve_value api_key) ;;
  client <- call_world (Unify model key) ;;
  alloc (OInstance {| api_key := api_key;
                      model := model;
                      generation_kwargs := generation_kwargs;
                      streaming_callback := streaming_callback;
                      client := client |}).

(** *** [to_dict], lines 37-48 *)
Definition to_dict (self : loc) : M pyval :=
  g <- load_self self ;;
  callback_name <-
    match streaming_callback g with
    | Some cb =>
        if callable_truthy cb
        then (load_global "serialize_callable" ;;;
              lift (serialize_callable cb))
        else ret PyNone
    | None => ret PyNone
    end ;;
  load_global "default_to_dict" ;;;
  kwargs <- load_dict (generation_kwargs g) ;;
  secret <- lift (Secret_to_dict (api_key g)) ;;
  ret (default_to_dict
         {[ "model" := PyStr (model g);
            "streaming_callback" := callback_name;
            "generation_kwargs" := PyDict kwargs;
            "api_key" := secret ]}).

(** *** [from_dict], lines 50-56 *)
Definition from_dict (data : pyval) : M loc :=
  load_global "deserialize_secrets_inplace" ;;;
  init_parameters <- lift (getitem data "init_parameters") ;;
  init_parameters <-
    lift (deserialize_secrets_inplace init_parameters ["api_key"]) ;;
  load_global "default_from_dict" ;;;
  default_from_dict data init_parameters.

(** *** [run], lines 59-72 *)

(** Line 72: the shape of the returned mapping. *)
Definition reply (response : pyval) : result pyval :=
  result_bind (getitem response "text") (fun text =>
  result_bind (dict_get response "meta" (PyDict ∅)) (fun meta =>
  Ok (PyDict {[ "replies" := PyList [text]; "meta" := meta ]}))).

Definition run (self : loc) (prompt : string) (kwargs : option loc)
    : M pyval :=
  g <- load_self self ;;
  defaults <- load_dict (generation_kwargs g) ;;
  overrides <- or_new_dict kwargs ;;
  overrides <- load_dict overrides ;;
  merged <- alloc (ODict (py_dict_merge defaults overrides)) ;;
  merged <- load_dict merged ;;
  filtered_kwargs <-
    alloc (ODict (filter (fun kv => kv.1 ∈ ALLOWED_PARAMS) merged)) ;;
  filtered_kwargs <- load_dict filtered_kwargs ;;
  response <- call_world (generate (client g) prompt filtered_kwargs) ;;
  lift (reply response).

(** *** Vocabulary of the statements *)

(** [self] is a generator with attributes [g]. *)
Definition has_instance (st : state) (self : loc) (g : UnifyGenerator) : Prop :=
  heap st !! self = Some (OInstance g).

(** [l] is a dict with entries [d]. *)
Definition has_dict (st : state) (l : loc) (d : gmap string pyval) : Prop :=
  heap st !! l = Some (ODict d).

(** The per-call argument of [run] denotes the options [o]: it is [None]
    (then [o] is empty) or a reference to a dict with entries [o]. *)
Definition call_kwargs (st : state) (kw : option loc) (o : gmap string pyval) : Prop :=
  match kw with
  | None => o = ∅
  | Some l => has_dict st l o
  end.

(** [not self.streaming_callback], the test of line 41: the callback is
    [None] or falsy. *)
Definition callback_falsy (g : UnifyGenerator) : bool :=
  match streaming_callback g with
  | Some cb => negb (callable_truthy cb)
  | None => true
  end.

(** The options that reach the provider, as lines 68-69 compute them. *)
Definition forwarded (d o : gmap string pyval) : gmap string pyval :=
  filter (fun kv => kv.1 ∈ ALLOWED_PARAMS) (py_dict_merge d o).

(** The caller mutates the dict at [l] so that it holds [d] ([x.clear()],
    [x.update(...)], [x[k] = v]). *)
Definition store_dict (l : loc) (d : gmap string pyval) (st : state) : state :=
  {| heap := <[l := ODict d]> (heap st); world := world st |}.

(** A computation that leaves every existing object as it is. *)
Definition extends {A} (m : M A) : Prop :=
  forall st : state, heap st ⊆ heap (m st).2.

End Adapter.

Arguments UnifyGenerator : clear implicits.
Arguments object : clear implicits.
Arguments state : clear implicits.

(** ** Doubles for the collaborators

    Small stand-ins that behave the way the real collaborators are
    documented to: an environment-variable secret that refuses to resolve
    when its variable is unset, a token secret that refuses to be
    serialized, a client class that rejects endpoints it does not know, and
    a [generate] that records each request and answers with a canned
    response. *)
Module Stub.

Inductive Secret : Type :=
| EnvVarSecret (name : string)
| TokenSecret (token : string).

(** A plain function, and a callable collector of chunks (a list with a
    [__call__] method), which is falsy while it is empty. *)
Inductive Callable : Type :=
| Function (qualname : string)
| Collector (chunks : list string).

Record Client : Type := mkClient {
  endpoint : string;
  key : option string
}.

(** What the provider has seen. *)
Inductive event : Type :=
| Connected (model : string)
| Generated (prompt : string) (kwargs : list (string * pyval)).

Record World : Type := mkWorld {
  environ : gmap string string;
  provider_log : list event
}.

Definition ValueError (msg : string) : exn := Exn "ValueError" msg.
Definition UnifyError (msg : string) : exn := Exn "UnifyError" msg.

Definition Secret_from_env_var (name : string) : Secret := EnvVarSecret name.

Definition resolve_value (s : Secret) (w : World) : result (option string) :=
  match s with
  | TokenSecret token => Ok (Some token)
  | EnvVarSecret name =>
      match environ w !! name with
      | Some v => Ok (Some v)
      | None => Raise (ValueError "authentication environment variable not set")
      end
  end.

Definition Secret_to_dict (s : Secret) : result pyval :=
  match s with
  | EnvVarSecret name =>
      Ok (PyDict {[ "type" := PyStr "env_var";
                    "env_vars" := PyList [PyStr name];
                    "strict" := PyBool true ]})
  | TokenSecret _ => Raise (ValueError "cannot serialize token-based secret")
  end.

Definition Unify (known : list string) (model : string) (key : option string)
    (w : World) : result Client * World :=
  let w' := {| environ := environ w;
               provider_log := provider_log w ++ [Connected model] |} in
  if bool_decide (model ∈ known)
  then (Ok {| endpoint := model; key := key |}, w')
  else (Raise (UnifyError "unknown endpoint"), w').

Definition generate (response : result pyval) (c : Client) (prompt : string)
    (kwargs : gmap string pyval) (w : World) : result pyval * World :=
  (response,
   {| environ := environ w;
      provider_log :=
        provider_log w ++ [Generated prompt (map_to_list kwargs)] |}).

Definition callable_truthy (cb : Callable) : bool :=
  match cb with
  | Function _ => true
  | Collector chunks => negb (bool_decide (chunks = []))
  end.

Definition default_to_dict (init_parameters : gmap string pyval) : pyval :=
  PyDict {[ "type" := PyStr "unify.UnifyGenerator";
            "init_parameters" := PyDict init_parameters ]}.

Definition serialize_callable (cb : Callable) : result pyval :=
  match cb with
  | Function qualname => Ok (PyStr qualname)
  | Collector _ => Ok (PyStr "Collector")
  end.

Definition deserialize_secrets_inplace (init_parameters : pyval)
    (keys : list string) : result (gmap string (pyval + Secret)) :=
  match init_parameters with
  | PyDict d => Ok (inl <$> d)
  | _ => Raise (TypeError "init_parameters is not a mapping")
  end.

Definition default_from_dict (data : pyval)
    (init_parameters : gmap string (pyval + Secret))
    : M (World := World) (Secret := Secret) (Callable := Callable)
        (Client := Client) loc :=
  raise (Exn "DeserializationError" "not reached").

Definition the_model : string := "mistral-7b-instruct-v0.2@fireworks-ai".

Definition empty_world : World := {| environ := ∅; provider_log := [] |}.

Definition keyed_world : World :=
  {| environ := {[ "UNIFY_API_KEY" := "k-123" ]}; provider_log := [] |}.

(** A generator built from the environment, with defaults
    [{"temperature": 1, "top_p": 2}] at location 1; the per-call options
    [{"temperature": 3, "stop": "x"}] at location 3. *)
Definition the_defaults : gmap string pyval :=
  {[ "temperature" := PyInt 1; "top_p" := PyInt 2 ]}.

Definition the_overrides : gmap string pyval :=
  {[ "temperature" := PyInt 3; "stop" := PyStr "x" ]}.

Definition the_generator (cb : option Callable) (s : Secret)
    : UnifyGenerator Secret Callable Client :=
  {| api_key := s;
     model := the_model;
     generation_kwargs := 1%positive;
     streaming_callback := cb;
     client := {| endpoint := the_model; key := Some "k-123" |} |}.

Definition the_state (cb : option Callable) (s : Secret)
    : state World Secret Callable Client :=
  {| heap := {[ 1%positive := ODict the_defaults;
                2%positive := OInstance (the_generator cb s);
                3%positive := ODict the_overrides ]};
     world := keyed_world |}.

Definition env_secret : Secret := EnvVarSecret "UNIFY_API_KEY".

Definition token_secret : Secret := TokenSecret "s3cr3t".

(** Provider responses: with and without a [meta] entry. *)
Definition hi_with_meta : gmap string pyval :=
  {[ "text" := PyStr "hi"; "meta" := PyDict {[ "tokens" := PyInt 2 ]} ]}.

Definition hi_without_meta : gmap string pyval :=
  {[ "text" := PyStr "hi" ]}.

Definition overloaded : exn := Exn "ProviderError" "503 overloaded".

(** The state exported for [the_generator None env_secret]. *)
Definition exported_state : pyval :=
  PyDict
    {[ "type" := PyStr "unify.UnifyGenerator";
       "init_parameters" :=
         PyDict
           {[ "model" := PyStr the_model;
              "streaming_callback" := PyNone;
              "generation_kwargs" := PyDict the_defaults;
              "api_key" :=
                PyDict {[ "type" := PyStr "env_var";
                          "env_vars" := PyList [PyStr "UNIFY_API_KEY"];
                          "strict" := PyBool true ]} ]} ]}.

(** An exported state without an [api_key] entry. *)
Definition state_without_credential : pyval :=
  PyDict {[ "type" := PyStr "unify.UnifyGenerator";
            "init_parameters" := PyDict {[ "model" := PyStr the_model ]} ]}.

(** The methods, run against the doubles. *)
Definition stub_init (known : list string) :=
  __init__ (Callable := Callable) Secret_from_env_var resolve_value (Unify known).

Definition stub_to_dict :=
  to_dict (World := World) (Client := Client)
    Secret_to_dict callable_truthy default_to_dict serialize_callable.

Definition stub_from_dict :=
  from_dict deserialize_secrets_inplace default_from_dict.

Definition stub_run (response : result pyval) :=
  run (Secret := Secret) (Callable := Callable) (generate response).

(** *** States before and after construction *)

(** Only the caller's dict of defaults exists, at location 1. *)
Definition bare_state : state World Secret Callable Client :=
  {| heap := {[ 1%positive := ODict the_defaults ]}; world := keyed_world |}.

Definition connected_world : World :=
  {| environ := {[ "UNIFY_API_KEY" := "k-123" ]};
     provider_log := [Connected the_model] |}.

(** [bare_state] after [UnifyGenerator(generation_kwargs=<dict 1>)]. *)
Definition built_state : state World Secret Callable Client :=
  {| heap := {[ 1%positive := ODict the_defaults;
                2%positive := OInstance (the_generator None env_secret) ]};
     world := connected_world |}.

(** The caller's dict at location 1 is empty. *)
Definition empty_dict_state : state World Secret Callable Client :=
  {| heap := {[ 1%positive := ODict ∅ ]}; world := keyed_world |}.

Definition own_generator : UnifyGenerator Secret Callable Client :=
  {| api_key := env_secret;
     model := the_model;
     generation_kwargs := 2%positive;
     streaming_callback := None;
     client := {| endpoint := the_model; key := Some "k-123" |} |}.

(** [empty_dict_state] after [UnifyGenerator(generation_kwargs=<dict 1>)]. *)
Definition built_own_state : state World Secret Callable Client :=
  {| heap := {[ 1%positive := ODict ∅;
                2%positive := ODict ∅;
                3%positive := OInstance own_generator ]};
     world := connected_world |}.

(** Per-call options that agree with [the_overrides] on the allowed names. *)
Definition seeded_options : gmap string pyval :=
  {[ "temperature" := PyInt 3; "seed" := PyInt 7 ]}.

Definition wide_state : state World Secret Callable Client :=
  {| heap := {[ 1%positive := ODict the_defaults;
                2%positive := OInstance (the_generator None env_secret);
                3%positive := ODict the_overrides;
                4%positive := ODict seeded_options ]};
     world := keyed_world |}.

(** A response without [text]. *)
Definition meta_only : gmap string pyval :=
  {[ "meta" := PyDict {[ "tokens" := PyInt 2 ]} ]}.

Definition the_client : Client :=
  {| endpoint := the_model; key := Some "k-123" |}.

Definition logged (w : World) (prompt : string) (kwargs : gmap string pyval)
    : World :=
  {| environ := environ w;
     provider_log := provider_log w ++ [Generated prompt (map_to_list kwargs)] |}.

End Stub.

(** ** Properties of the adapter *)

(** *** Merging and filtering *)

Lemma forwarded_lookup d o k v :
  forwarded d o !! k = Some v <->
  (k = "max_tokens" \/ k = "temperature") /\ py_dict_merge d o !! k = Some v.
Proof.
  unfold forwarded. rewrite map_lookup_filter_Some. simpl.
  unfold ALLOWED_PARAMS. rewrite !elem_of_cons, elem_of_nil. tauto.
Qed.

Lemma merge_lookup_override d o k v :
  o !! k = Some v -> py_dict_merge d o !! k = Some v.
Proof. intros H. unfold py_dict_merge. by apply lookup_union_Some_l. Qed.

Lemma merge_lookup_default d o k :
  o !! k = None -> py_dict_merge d o !! k = d !! k.
Proof. intros H. unfold py_dict_merge. by apply lookup_union_r. Qed.

Section Theory.

Context {World Secret Callable Client : Type}.

Variable Secret_from_env_var : string -> Secret.
Variable resolve_value : Secret -> World -> result (option string).
Variable Secret_to_dict : Secret -> result pyval.
Variable Unify : string -> option string -> World -> result Client * World.
Variable generate :
  Client -> string -> gmap string pyval -> World -> result pyval * World.
Variable callable_truthy : Callable -> bool.
Variable default_to_dict : gmap string pyval -> pyval.
Variable serialize_callable : Callable -> result pyval.
Variable deserialize_secrets_inplace :
  pyval -> list string -> result (gmap string (pyval + Secret)).
Variable default_from_dict :
  pyval -> gmap string (pyval + Secret) ->
  M (World := World) (Secret := Secret) (Callable := Callable)
    (Client := Client) loc.

Abbreviation State := (state World Secret Callable Client).
Abbreviation Generator := (UnifyGenerator Secret Callable Client).
Abbreviation Comp :=
  (M (World := World) (Secret := Secret) (Callable := Callable)
     (Client := Client)).

(** The methods, with the collaborators of this section. *)
Abbreviation init_ :=
  (__init__ (Callable := Callable) Secret_from_env_var resolve_value Unify).
Abbreviation to_dict_ :=
  (to_dict (World := World) (Client := Client)
     Secret_to_dict callable_truthy default_to_dict serialize_callable).
Abbreviation from_dict_ :=
  (from_dict deserialize_secrets_inplace default_from_dict).
Abbreviation run_ :=
  (run (Secret := Secret) (Callable := Callable) generate).

Implicit Types (st : State) (g : Generator) (d o : gmap string pyval)
  (l self : loc) (kw : option loc) (prompt : string).

(** *** Allocation only extends the heap *)

Lemma fresh_unused (h : gmap loc (object Secret Callable Client)) :
  h !! fresh (dom h) = None.
Proof. apply not_elem_of_dom, is_fresh. Qed.

Lemma extends_ret {A} (a : A) : extends (ret a : Comp A).
Proof. intros st. reflexivity. Qed.

Lemma extends_raise {A} e : extends (raise e : Comp A).
Proof. intros st. reflexivity. Qed.

Lemma extends_lift {A} (r : result A) : extends (lift r : Comp A).
Proof. intros st. reflexivity. Qed.

Lemma extends_read_world {A} (f : World -> result A) :
  extends (read_world f : Comp A).
Proof. intros st. reflexivity. Qed.

Lemma extends_call_world {A} (f : World -> result A * World) :
  extends (call_world f : Comp A).
Proof. intros st. unfold call_world. destruct (f (world st)). reflexivity. Qed.

Lemma extends_alloc (ob : object Secret Callable Client) :
  extends (alloc ob : Comp loc).
Proof.
  intros st. unfold alloc. simpl.
  apply insert_subseteq, fresh_unused.
Qed.

Lemma extends_load_dict l : extends (load_dict l : Comp _).
Proof.
  intros st. unfold load_dict.
  destruct (heap st !! l) as [[?|?]|]; reflexivity.
Qed.

Lemma extends_load_self self : extends (load_self self : Comp _).
Proof.
  intros st. unfold load_self.
  destruct (heap st !! self) as [[?|?]|]; reflexivity.
Qed.

Lemma extends_load_global name : extends (load_global name : Comp unit).
Proof.
  unfold load_global. destruct (is_bound name);
    [apply extends_ret | apply extends_raise].
Qed.

Lemma extends_or_new_dict kw : extends (or_new_dict kw : Comp loc).
Proof.
  destruct kw as [l|]; simpl; [|apply extends_alloc].
  intros st. destruct (heap st !! l) as [[d|?]|]; try reflexivity.
  destruct (decide (d = ∅)); [apply extends_alloc | reflexivity].
Qed.

Lemma extends_bind {A B} (m : Comp A) (k : A -> Comp B) :
  extends m -> (forall a, extends (k a)) -> extends (bind m k).
Proof.
  intros Hm Hk st. unfold bind.
  specialize (Hm st). destruct (m st) as [[a|e] st1]; simpl in *.
  - etrans; [exact Hm | apply Hk].
  - exact Hm.
Qed.

Create HintDb extends discriminated.
Hint Resolve extends_ret extends_raise extends_lift extends_read_world
  extends_call_world extends_alloc extends_load_dict extends_load_self
  extends_load_global extends_or_new_dict : extends.

Ltac extends_tac :=
  repeat (first [ apply extends_bind; [|intros ?] | solve [auto with extends] ]).

Lemma extends_run self prompt kw : extends (run_ self prompt kw).
Proof. unfold run. extends_tac. Qed.

Lemma extends_init ak mo cb kw : extends (init_ ak mo cb kw).
Proof. unfold __init__. extends_tac. Qed.

(** *** What [run] does, step by step *)

Lemma alloc_spec (ob : object Secret Callable Client) st :
  exists l,
    alloc ob st = (Ok l, {| heap := <[l := ob]> (heap st); world := world st |})
    /\ heap st !! l = None.
Proof. exists (fresh (dom (heap st))). split; [reflexivity | apply fresh_unused]. Qed.

Lemma load_dict_spec st l d :
  has_dict st l d -> load_dict l st = (Ok d, st).
Proof. unfold has_dict, load_dict. intros ->. reflexivity. Qed.

Lemma load_self_spec st self g :
  has_instance st self g -> load_self self st = (Ok g, st).
Proof. unfold has_instance, load_self. intros ->. reflexivity. Qed.

Lemma or_new_dict_spec kw st o :
  call_kwargs st kw o ->
  exists l st1,
    or_new_dict kw st = (Ok l, st1)
    /\ has_dict st1 l o /\ heap st ⊆ heap st1 /\ world st1 = world st.
Proof.
  destruct kw as [l|]; simpl.
  - intros Hl. unfold has_dict in Hl. rewrite Hl.
    destruct (decide (o = ∅)) as [->|Hne].
    + destruct (alloc_spec (ODict ∅) st) as (l' & -> & Hfresh).
      eexists _, _. split; [reflexivity|]. unfold has_dict. simpl.
      rewrite lookup_insert_eq.
      repeat split. by apply insert_subseteq.
    + exists l, st. auto.
  - intros ->.
    destruct (alloc_spec (ODict ∅) st) as (l' & -> & Hfresh).
    eexists _, _. split; [reflexivity|]. unfold has_dict. simpl.
    rewrite lookup_insert_eq.
    repeat split. by apply insert_subseteq.
Qed.

Lemma bind_ok {A B} (m : Comp A) (k : A -> Comp B) st a st' :
  m st = (Ok a, st') -> bind m k st = k a st'.
Proof. unfold bind. intros ->. reflexivity. Qed.

Lemma bind_raise {A B} (m : Comp A) (k : A -> Comp B) st e st' :
  m st = (Raise e, st') -> bind m k st = (Raise e, st').
Proof. unfold bind. intros ->. reflexivity. Qed.

Lemma alloc_dict_spec d st :
  exists l st1,
    alloc (ODict d) st = (Ok l, st1)
    /\ heap st !! l = None
    /\ has_dict st1 l d /\ heap st ⊆ heap st1 /\ world st1 = world st.
Proof.
  destruct (alloc_spec (ODict d) st) as (l & -> & Hfresh).
  eexists _, _. split; [reflexivity|]. unfold has_dict. cbn [heap world].
  rewrite lookup_insert_eq. repeat split; [done|]. by apply insert_subseteq.
Qed.

(** With a well-formed receiver and arguments, [run] is one call of
    [generate] on the filtered merge, reshaped by [reply]; on the way it
    allocates the merged mapping at a location [lm] that was unused. *)
Lemma run_unfold self prompt kw st g d o :
  has_instance st self g ->
  has_dict st (generation_kwargs g) d ->
  call_kwargs st kw o ->
  exists h' lm,
    heap st ⊆ h'
    /\ heap st !! lm = None
    /\ h' !! lm = Some (ODict (py_dict_merge d o))
    /\ run_ self prompt kw st =
      (result_bind (generate (client g) prompt (forwarded d o) (world st)).1 reply,
       {| heap := h';
          world := (generate (client g) prompt (forwarded d o) (world st)).2 |}).
Proof.
  intros Hself Hd Hkw. unfold run.
  rewrite (bind_ok _ _ _ _ _ (load_self_spec _ _ _ Hself)).
  rewrite (bind_ok _ _ _ _ _ (load_dict_spec _ _ _ Hd)).
  destruct (or_new_dict_spec _ _ _ Hkw) as (l & st1 & Hor & Ho & Hsub1 & Hw1).
  rewrite (bind_ok _ _ _ _ _ Hor), (bind_ok _ _ _ _ _ (load_dict_spec _ _ _ Ho)).
  destruct (alloc_dict_spec (py_dict_merge d o) st1)
    as (l2 & st2 & Hal2 & Hfresh2 & Hm & Hsub2 & Hw2).
  rewrite (bind_ok _ _ _ _ _ Hal2), (bind_ok _ _ _ _ _ (load_dict_spec _ _ _ Hm)).
  fold (forwarded d o).
  destruct (alloc_dict_spec (forwarded d o) st2)
    as (l3 & st3 & Hal3 & _ & Hf & Hsub3 & Hw3).
  rewrite (bind_ok _ _ _ _ _ Hal3), (bind_ok _ _ _ _ _ (load_dict_spec _ _ _ Hf)).
  exists (heap st3), l2. repeat split.
  - by repeat (etrans; [eassumption|]).
  - eapply lookup_weaken_None; eassumption.
  - eapply lookup_weaken; eassumption.
  - unfold bind, call_world, lift. rewrite Hw3, Hw2, Hw1.
    destruct (generate (client g) prompt (forwarded d o) (world st))
      as [[resp|e] w']; reflexivity.
Qed.

(** *** The option pipeline of [run] *)

(** C1: whatever the merged options hold, the mapping handed to [generate]
    binds exactly the keys of the merge that are [max_tokens] or
    [temperature], with the values of the merge; the other keys are left
    out and [run] goes on to the provider call without raising for them. *)
Theorem run_forwards_only_allowed self prompt kw st g d o :
  has_instance st self g ->
  has_dict st (generation_kwargs g) d ->
  call_kwargs st kw o ->
  exists fk,
    (forall k v,
        fk !! k = Some v <->
        (k = "max_tokens" \/ k = "temperature")
        /\ py_dict_merge d o !! k = Some v)
    /\ (forall k, k ∉ ALLOWED_PARAMS -> fk !! k = None)
    /\ (run_ self prompt kw st).1
       = result_bind (generate (client g) prompt fk (world st)).1 reply
    /\ world (run_ self prompt kw st).2
       = (generate (client g) prompt fk (world st)).2.
Proof.
  intros Hself Hd Hkw.
  destruct (run_unfold self prompt kw st g d o Hself Hd Hkw)
    as (h' & lm & _ & _ & _ & ->).
  exists (forwarded d o).
  split; [intros k v; apply forwarded_lookup|].
  split; [|split; reflexivity].
  intros k Hk. unfold forwarded. apply map_lookup_filter_None. right.
  intros v _. exact Hk.
Qed.

(** C5: the merged mapping, which [run] builds at a location that was
    unused, takes every key of the per-call options from the per-call
    options, and only the remaining keys from the defaults; it is this
    mapping that is filtered and sent. *)
Theorem run_call_options_override self prompt kw st g d o :
  has_instance st self g ->
  has_dict st (generation_kwargs g) d ->
  call_kwargs st kw o ->
  exists lm merged,
    heap st !! lm = None
    /\ has_dict (run_ self prompt kw st).2 lm merged
    /\ (forall k v, o !! k = Some v -> merged !! k = Some v)
    /\ (forall k, o !! k = None -> merged !! k = d !! k)
    /\ (run_ self prompt kw st).1
       = result_bind
           (generate (client g) prompt
              (filter (fun kv => kv.1 ∈ ALLOWED_PARAMS) merged) (world st)).1
           reply.
Proof.
  intros Hself Hd Hkw.
  destruct (run_unfold self prompt kw st g d o Hself Hd Hkw)
    as (h' & lm & _ & Hfresh & Hlm & ->).
  exists lm, (py_dict_merge d o). repeat split.
  - exact Hfresh.
  - exact Hlm.
  - apply merge_lookup_override.
  - apply merge_lookup_default.
Qed.

(** *** The reply of [run] *)

(** C4: when the provider answers with a mapping [m] that has a [text]
    entry, [run] returns [{"replies": [m["text"]], "meta": m.get("meta", {})}]. *)
Theorem run_reply_shape self prompt kw st g d o m text w' :
  has_instance st self g ->
  has_dict st (generation_kwargs g) d ->
  call_kwargs st kw o ->
  generate (client g) prompt (forwarded d o) (world st) = (Ok (PyDict m), w') ->
  m !! "text" = Some text ->
  (run_ self prompt kw st).1
  = Ok (PyDict {[ "replies" := PyList [text];
                  "meta" := default (PyDict ∅) (m !! "meta") ]}).
Proof.
  intros Hself Hd Hkw Hgen Htext.
  destruct (run_unfold self prompt kw st g d o Hself Hd Hkw)
    as (h' & lm & _ & _ & _ & ->).
  rewrite Hgen. simpl. unfold reply, getitem, dict_get. rewrite Htext. simpl.
  destruct (m !! "meta"); reflexivity.
Qed.

(** C8: when the provider call raises [e], [run] raises the same [e], and
    the world is the one that this single call left: nothing is retried,
    wrapped or returned. *)
Theorem run_propagates_provider_failure self prompt kw st g d o e w' :
  has_instance st self g ->
  has_dict st (generation_kwargs g) d ->
  call_kwargs st kw o ->
  generate (client g) prompt (forwarded d o) (world st) = (Raise e, w') ->
  (run_ self prompt kw st).1 = Raise e
  /\ world (run_ self prompt kw st).2 = w'.
Proof.
  intros Hself Hd Hkw Hgen.
  destruct (run_unfold self prompt kw st g d o Hself Hd Hkw)
    as (h' & lm & _ & _ & _ & ->).
  rewrite Hgen. split; reflexivity.
Qed.

(** *** [run] and the configuration *)

(** C10: after [run] the receiver has the attributes it had, its default
    options hold the entries they held, and so does every other object
    that existed before the call, the per-call options among them. *)
Theorem run_leaves_configuration self prompt kw st g d :
  has_instance st self g ->
  has_dict st (generation_kwargs g) d ->
  has_instance (run_ self prompt kw st).2 self g
  /\ has_dict (run_ self prompt kw st).2 (generation_kwargs g) d
  /\ heap st ⊆ heap (run_ self prompt kw st).2.
Proof.
  intros Hself Hd. pose proof (extends_run self prompt kw st) as Hsub.
  unfold has_instance, has_dict in *.
  repeat split; [eapply lookup_weaken; eassumption..|exact Hsub].
Qed.

(** *** Construction *)

Lemma or_new_dict_total kw st :
  exists l st1,
    or_new_dict kw st = (Ok l, st1) /\ world st1 = world st.
Proof.
  destruct kw as [l|]; simpl.
  - destruct (heap st !! l) as [[d|?]|]; [|by eexists _, _..].
    destruct (decide (d = ∅)); by eexists _, _.
  - by eexists _, _.
Qed.

(** [__init__] evaluates [generation_kwargs or {}], resolves the
    credential, calls the client class, and only then has an instance. *)
Lemma init_unfold ak mo cb kw st :
  exists l st1,
    world st1 = world st
    /\ init_ ak mo cb kw st =
       match resolve_value (default (Secret_from_env_var "UNIFY_API_KEY") ak)
               (world st) with
       | Raise e => (Raise e, st1)
       | Ok key =>
           match Unify (default "mistral-7b-instruct-v0.2@fireworks-ai" mo) key
                   (world st) with
           | (Raise e, w) => (Raise e, {| heap := heap st1; world := w |})
           | (Ok c, w) =>
               alloc (OInstance
                        {| api_key := default (Secret_from_env_var "UNIFY_API_KEY") ak;
                           model := default "mistral-7b-instruct-v0.2@fireworks-ai" mo;
                           generation_kwargs := l;
                           streaming_callback := cb;
                           client := c |})
                 {| heap := heap st1; world := w |}
           end
       end.
Proof.
  destruct (or_new_dict_total kw st) as (l & st1 & Hor & Hw).
  exists l, st1. split; [exact Hw|].
  unfold __init__. rewrite (bind_ok _ _ _ _ _ Hor).
  unfold load_global. change (is_bound "Unify") with true. cbv iota.
  unfold bind, ret, read_world, call_world. rewrite Hw.
  destruct (resolve_value _ (world st)) as [key|e0]; [|reflexivity].
  destruct (Unify _ key (world st)) as [[c|e1] w1]; reflexivity.
Qed.

(** C7, as amended: when the credential does not resolve, construction
    raises the resolution error and the world is untouched (the client
    class has not been called); and a construction that raises does so
    either for that reason or because the call of the client class
    raised. *)
Theorem init_failure_modes ak mo cb kw st :
  (forall e,
      resolve_value (default (Secret_from_env_var "UNIFY_API_KEY") ak) (world st)
      = Raise e ->
      (init_ ak mo cb kw st).1 = Raise e
      /\ world (init_ ak mo cb kw st).2 = world st)
  /\ (forall e,
      (init_ ak mo cb kw st).1 = Raise e ->
      resolve_value (default (Secret_from_env_var "UNIFY_API_KEY") ak) (world st)
      = Raise e
      \/ exists key,
          resolve_value (default (Secret_from_env_var "UNIFY_API_KEY") ak)
            (world st) = Ok key
          /\ (Unify (default "mistral-7b-instruct-v0.2@fireworks-ai" mo) key
                (world st)).1 = Raise e).
Proof.
  destruct (init_unfold ak mo cb kw st) as (l & st1 & Hw & ->).
  destruct (resolve_value _ (world st)) as [key|e0].
  - split; [discriminate|]. intros e He. right. exists key. split; [done|].
    destruct (Unify _ key (world st)) as [[c|e1] w1]; [discriminate He|].
    simpl in *. by injection He as ->.
  - split.
    + intros e [= ->]. by rewrite <- Hw.
    + intros e [= ->]. by left.
Qed.

(** *** Export and import *)

Lemma to_dict_unfold self st g d :
  has_instance st self g ->
  has_dict st (generation_kwargs g) d ->
  to_dict_ self st =
    if callback_falsy callable_truthy g
    then (result_bind (Secret_to_dict (api_key g)) (fun ref =>
            Ok (default_to_dict
                  {[ "model" := PyStr (model g);
                     "streaming_callback" := PyNone;
                     "generation_kwargs" := PyDict d;
                     "api_key" := ref ]})),
          st)
    else (Raise (NameError "serialize_callable"), st).
Proof.
  intros Hself Hd. unfold to_dict, callback_falsy.
  rewrite (bind_ok _ _ _ _ _ (load_self_spec _ _ _ Hself)).
  assert (Hskip :
    bind (ret PyNone : Comp pyval) (fun callback_name =>
      bind (load_global "default_to_dict") (fun _ =>
      bind (load_dict (generation_kwargs g)) (fun kwargs =>
      bind (lift (Secret_to_dict (api_key g))) (fun secret =>
      ret (default_to_dict
             {[ "model" := PyStr (model g);
                "streaming_callback" := callback_name;
                "generation_kwargs" := PyDict kwargs;
                "api_key" := secret ]}))))) st
    = (result_bind (Secret_to_dict (api_key g)) (fun ref =>
            Ok (default_to_dict
                  {[ "model" := PyStr (model g);
                     "streaming_callback" := PyNone;
                     "generation_kwargs" := PyDict d;
                     "api_key" := ref ]})), st)).
  { unfold bind at 1. unfold ret at 1.
    unfold load_global. change (is_bound "default_to_dict") with true.
    cbv iota. unfold bind at 1. unfold ret at 1.
    rewrite (bind_ok _ _ _ _ _ (load_dict_spec _ _ _ Hd)).
    unfold bind, lift, ret. by destruct (Secret_to_dict (api_key g)). }
  destruct (streaming_callback g) as [cb|]; [|exact Hskip].
  destruct (callable_truthy cb); [|exact Hskip].
  reflexivity.
Qed.

(** C9, as amended: line 41 tests the truth value of the callback.  When
    the callback is [None] or falsy, no callback is serialized and
    [to_dict] is the credential's own [to_dict] followed by
    [default_to_dict]: a mapping when the credential serializes, the
    credential's exception otherwise.  When the callback is truthy,
    [to_dict] raises the [NameError] of [serialize_callable]; so a mapping
    is only ever returned in the first case. *)
Theorem to_dict_by_callback self st g d :
  has_instance st self g ->
  has_dict st (generation_kwargs g) d ->
  (callback_falsy callable_truthy g = true ->
     to_dict_ self st
     = (result_bind (Secret_to_dict (api_key g)) (fun ref =>
          Ok (default_to_dict
                {[ "model" := PyStr (model g);
                   "streaming_callback" := PyNone;
                   "generation_kwargs" := PyDict d;
                   "api_key" := ref ]})),
        st))
  /\ (callback_falsy callable_truthy g = false ->
     to_dict_ self st = (Raise (NameError "serialize_callable"), st))
  /\ (forall m st',
     to_dict_ self st = (Ok m, st') -> callback_falsy callable_truthy g = true).
Proof.
  intros Hself Hd. rewrite (to_dict_unfold self st g d Hself Hd).
  destruct (callback_falsy callable_truthy g).
  - split; [done|]. split; [discriminate|done].
  - split; [discriminate|]. split; [done|]. intros m st' [=].
Qed.

(** C6: in every mapping that [to_dict] returns, the [api_key] entry handed
    to [default_to_dict] is the credential's own [to_dict] form; and the
    mapping does not depend on the client (which holds the resolved value)
    or on the world (where the credential resolves): any generator with the
    same credential object, model, callback and default options exports the
    same mapping in any state. *)
Theorem to_dict_exports_secret_reference self st g d m st' :
  has_instance st self g ->
  has_dict st (generation_kwargs g) d ->
  to_dict_ self st = (Ok m, st') ->
  (exists ref,
      Secret_to_dict (api_key g) = Ok ref
      /\ m = default_to_dict
               {[ "model" := PyStr (model g);
                  "streaming_callback" := PyNone;
                  "generation_kwargs" := PyDict d;
                  "api_key" := ref ]})
  /\ (forall self2 st2 c2 l2,
      has_instance st2 self2
        {| api_key := api_key g; model := model g; generation_kwargs := l2;
           streaming_callback := streaming_callback g; client := c2 |} ->
      has_dict st2 l2 d ->
      to_dict_ self2 st2 = (Ok m, st2)).
Proof.
  intros Hself Hd Hto.
  rewrite (to_dict_unfold self st g d Hself Hd) in Hto.
  destruct (callback_falsy callable_truthy g) eqn:Hcb; [|discriminate Hto].
  destruct (Secret_to_dict (api_key g)) as [ref|e] eqn:Href; [|discriminate Hto].
  simpl in Hto. injection Hto as <- <-. split.
  - by exists ref.
  - intros self2 st2 c2 l2 Hself2 Hd2.
    rewrite (to_dict_unfold self2 st2 _ d Hself2 Hd2).
    unfold callback_falsy in *. cbn [streaming_callback api_key model].
    by rewrite Hcb, Href.
Qed.

(** [from_dict] stops at its first step, the load of a name that the
    module does not bind, whatever the state mapping holds. *)
Lemma from_dict_unbound_name data st :
  from_dict_ data st = (Raise (NameError "deserialize_secrets_inplace"), st).
Proof. reflexivity. Qed.

(** ** Further properties *)

(** *** Construction, on success *)

Lemma or_new_dict_sharing kw st o l st1 :
  call_kwargs st kw o ->
  or_new_dict kw st = (Ok l, st1) ->
  has_dict st1 l o
  /\ heap st ⊆ heap st1
  /\ world st1 = world st
  /\ (o <> ∅ -> kw = Some l)
  /\ (o = ∅ -> heap st !! l = None).
Proof.
  intros Hkw Hor.
  destruct (or_new_dict_spec _ _ _ Hkw) as (l' & st1' & Hor' & Ho & Hsub & Hw).
  rewrite Hor in Hor'. injection Hor' as <- <-.
  split; [exact Ho|]. split; [exact Hsub|]. split; [exact Hw|].
  destruct kw as [l0|]; simpl in Hkw, Hor.
  - unfold has_dict in Hkw. rewrite Hkw in Hor.
    destruct (decide (o = ∅)) as [Heq|Hne].
    + split; [done|]. intros _. unfold alloc in Hor.
      injection Hor as <- _. apply fresh_unused.
    + injection Hor as <- _. split; [done|]. intros Heq. by destruct Hne.
  - split; [intros Hne; by destruct Hne|]. intros _. unfold alloc in Hor.
    injection Hor as <- _. apply fresh_unused.
Qed.

(** Everything a successful [__init__] has done. *)
Lemma init_ok_inv ak mo cb kw st o self st' :
  call_kwargs st kw o ->
  init_ ak mo cb kw st = (Ok self, st') ->
  exists l key c,
    resolve_value (default (Secret_from_env_var "UNIFY_API_KEY") ak) (world st)
    = Ok key
    /\ Unify (default "mistral-7b-instruct-v0.2@fireworks-ai" mo) key (world st)
       = (Ok c, world st')
    /\ heap st !! self = None
    /\ has_instance st' self
         {| api_key := default (Secret_from_env_var "UNIFY_API_KEY") ak;
            model := default "mistral-7b-instruct-v0.2@fireworks-ai" mo;
            generation_kwargs := l;
            streaming_callback := cb;
            client := c |}
    /\ has_dict st' l o
    /\ (o <> ∅ -> kw = Some l)
    /\ (o = ∅ -> heap st !! l = None)
    /\ heap st ⊆ heap st'.
Proof.
  intros Hkw Hinit. pose proof (extends_init ak mo cb kw st) as Hext.
  rewrite Hinit in Hext. simpl in Hext.
  destruct (or_new_dict_spec _ _ _ Hkw) as (l & st1 & Hor & _).
  destruct (or_new_dict_sharing _ _ _ _ _ Hkw Hor)
    as (Ho & Hsub & Hw & Hshare & Hnew).
  unfold __init__ in Hinit. rewrite (bind_ok _ _ _ _ _ Hor) in Hinit.
  unfold load_global in Hinit. change (is_bound "Unify") with true in Hinit.
  cbv iota in Hinit. unfold bind, ret, read_world, call_world in Hinit.
  rewrite Hw in Hinit.
  destruct (resolve_value _ (world st)) as [key|e0]; [|discriminate Hinit].
  destruct (Unify _ key (world st)) as [[c|e1] w1] eqn:HU; [|discriminate Hinit].
  unfold alloc in Hinit. cbn [heap world] in Hinit.
  injection Hinit as <- <-. cbn [heap world].
  pose proof (fresh_unused (heap st1)) as Hfresh.
  exists l, key, c. unfold has_instance, has_dict. cbn [heap world].
  split; [done|]. split; [done|].
  split; [eapply lookup_weaken_None; eassumption|].
  split; [apply lookup_insert_eq|].
  split.
  { rewrite lookup_insert_ne; [exact Ho|]. intros Heq.
    rewrite Heq in Hfresh. unfold has_dict in Ho. congruence. }
  split; [exact Hshare|]. split; [exact Hnew|]. exact Hext.
Qed.

Lemma init_ok ak mo cb kw st key c w' :
  resolve_value (default (Secret_from_env_var "UNIFY_API_KEY") ak) (world st)
  = Ok key ->
  Unify (default "mistral-7b-instruct-v0.2@fireworks-ai" mo) key (world st)
  = (Ok c, w') ->
  exists self l st',
    init_ ak mo cb kw st = (Ok self, st')
    /\ world st' = w'
    /\ heap st !! self = None
    /\ has_instance st' self
         {| api_key := default (Secret_from_env_var "UNIFY_API_KEY") ak;
            model := default "mistral-7b-instruct-v0.2@fireworks-ai" mo;
            generation_kwargs := l;
            streaming_callback := cb;
            client := c |}
    /\ heap st ⊆ heap st'.
Proof.
  intros Hres HU. pose proof (extends_init ak mo cb kw st) as Hext.
  pose proof (extends_or_new_dict kw st) as Hsub.
  destruct (or_new_dict_total kw st) as (l & st1 & Hor & Hw).
  rewrite Hor in Hsub. simpl in Hsub.
  assert (Hinit : init_ ak mo cb kw st =
    alloc (OInstance
             {| api_key := default (Secret_from_env_var "UNIFY_API_KEY") ak;
                model := default "mistral-7b-instruct-v0.2@fireworks-ai" mo;
                generation_kwargs := l;
                streaming_callback := cb;
                client := c |})
      {| heap := heap st1; world := w' |}).
  { unfold __init__. rewrite (bind_ok _ _ _ _ _ Hor).
    unfold load_global. change (is_bound "Unify") with true. cbv iota.
    unfold bind, ret, read_world, call_world. by rewrite Hw, Hres, HU. }
  rewrite Hinit in Hext |- *. unfold alloc in *. cbn [heap world] in *.
  pose proof (fresh_unused (heap st1)) as Hfresh.
  eexists _, l, _. split; [reflexivity|]. unfold has_instance. cbn [heap world].
  split; [done|]. split; [eapply lookup_weaken_None; eassumption|].
  split; [apply lookup_insert_eq|]. exact Hext.
Qed.

(** X1: when the credential resolves to [key] and the client class accepts
    [(model, key)], [__init__] returns a new object (at a location that was
    unused) whose attributes are the credential and model given or
    defaulted, the callback given, and the client that this call of the
    client class returned; the world is the one that call left, and no
    object that existed before is changed. *)
Theorem init_builds_generator ak mo cb kw st key c w' :
  resolve_value (default (Secret_from_env_var "UNIFY_API_KEY") ak) (world st)
  = Ok key ->
  Unify (default "mistral-7b-instruct-v0.2@fireworks-ai" mo) key (world st)
  = (Ok c, w') ->
  exists self l,
    (init_ ak mo cb kw st).1 = Ok self
    /\ heap st !! self = None
    /\ has_instance (init_ ak mo cb kw st).2 self
         {| api_key := default (Secret_from_env_var "UNIFY_API_KEY") ak;
            model := default "mistral-7b-instruct-v0.2@fireworks-ai" mo;
            generation_kwargs := l;
            streaming_callback := cb;
            client := c |}
    /\ world (init_ ak mo cb kw st).2 = w'
    /\ heap st ⊆ heap (init_ ak mo cb kw st).2.
Proof.
  intros Hres HU.
  destruct (init_ok ak mo cb kw st key c w' Hres HU)
    as (self & l & st' & -> & Hw & Hfresh & Hself & Hsub).
  exists self, l. by repeat split.
Qed.

(** X2: the default options of a generator that [__init__] returned hold
    the entries of the dict passed in ([o]; none when it was omitted).  A
    non-empty dict is stored by reference, so the generator shares it with
    the caller; for an omitted or empty one the generator gets an empty
    dict of its own, at a location that was unused. *)
Theorem init_default_options ak mo cb kw st o self st' :
  call_kwargs st kw o ->
  init_ ak mo cb kw st = (Ok self, st') ->
  exists g,
    has_instance st' self g
    /\ has_dict st' (generation_kwargs g) o
    /\ (o <> ∅ -> kw = Some (generation_kwargs g))
    /\ (o = ∅ -> heap st !! generation_kwargs g = None).
Proof.
  intros Hkw Hinit.
  destruct (init_ok_inv ak mo cb kw st o self st' Hkw Hinit)
    as (l & key & c & _ & _ & _ & Hself & Hd & Hshare & Hnew & _).
  eexists. split; [exact Hself|]. cbn [generation_kwargs]. by repeat split.
Qed.

(** *** Construction composed with the other methods *)

(** X3: a generator constructed without a callback exports what it was
    constructed from: the model given or defaulted, no callback, the
    entries of the default options (an empty mapping when they were
    omitted) and the credential's reference form; exporting changes
    nothing. *)
Theorem init_then_to_dict ak mo kw st o self st' ref :
  call_kwargs st kw o ->
  init_ ak mo None kw st = (Ok self, st') ->
  Secret_to_dict (default (Secret_from_env_var "UNIFY_API_KEY") ak) = Ok ref ->
  to_dict_ self st'
  = (Ok (default_to_dict
           {[ "model" := PyStr (default "mistral-7b-instruct-v0.2@fireworks-ai" mo);
              "streaming_callback" := PyNone;
              "generation_kwargs" := PyDict o;
              "api_key" := ref ]}),
     st').
Proof.
  intros Hkw Hinit Href.
  destruct (init_ok_inv ak mo None kw st o self st' Hkw Hinit)
    as (l & key & c & _ & _ & _ & Hself & Hd & _).
  rewrite (to_dict_unfold self st' _ o Hself Hd).
  unfold callback_falsy. cbn [streaming_callback api_key model].
  by rewrite Href.
Qed.

(** X4: [run] on a generator that [__init__] returned sends the prompt,
    with the allowed entries of the constructor's default options
    overridden by the per-call ones, to the very client that the client
    class returned for the model and the resolved credential. *)
Theorem init_then_run ak mo cb kw st o self st' prompt kw2 o2 :
  call_kwargs st kw o ->
  init_ ak mo cb kw st = (Ok self, st') ->
  call_kwargs st' kw2 o2 ->
  exists key c,
    resolve_value (default (Secret_from_env_var "UNIFY_API_KEY") ak) (world st)
    = Ok key
    /\ Unify (default "mistral-7b-instruct-v0.2@fireworks-ai" mo) key (world st)
       = (Ok c, world st')
    /\ (run_ self prompt kw2 st').1
       = result_bind (generate c prompt (forwarded o o2) (world st')).1 reply
    /\ world (run_ self prompt kw2 st').2
       = (generate c prompt (forwarded o o2) (world st')).2.
Proof.
  intros Hkw Hinit Hkw2.
  destruct (init_ok_inv ak mo cb kw st o self st' Hkw Hinit)
    as (l & key & c & Hres & HU & _ & Hself & Hd & _).
  exists key, c. split; [exact Hres|]. split; [exact HU|].
  destruct (run_unfold self prompt kw2 st' _ o o2 Hself Hd Hkw2)
    as (h' & lm & _ & _ & _ & ->).
  split; reflexivity.
Qed.

(** *** [run]: responses it cannot reshape *)

(** X5: when the provider answers with a mapping that has no [text] entry
    (whether or not it has a [meta] entry), [run] raises [KeyError] for
    [text]; the provider call has taken place all the same. *)
Theorem run_response_without_text self prompt kw st g d o m w' :
  has_instance st self g ->
  has_dict st (generation_kwargs g) d ->
  call_kwargs st kw o ->
  generate (client g) prompt (forwarded d o) (world st) = (Ok (PyDict m), w') ->
  m !! "text" = None ->
  (run_ self prompt kw st).1 = Raise (KeyError "text")
  /\ world (run_ self prompt kw st).2 = w'.
Proof.
  intros Hself Hd Hkw Hgen Htext.
  destruct (run_unfold self prompt kw st g d o Hself Hd Hkw)
    as (h' & lm & _ & _ & _ & ->).
  rewrite Hgen. simpl. unfold reply, getitem. rewrite Htext. by split.
Qed.

(** X6: when the provider answers with anything but a mapping (a plain
    string, say), [run] raises [TypeError] from [response["text"]]; the
    provider call has taken place all the same. *)
Theorem run_response_not_a_mapping self prompt kw st g d o resp w' :
  has_instance st self g ->
  has_dict st (generation_kwargs g) d ->
  call_kwargs st kw o ->
  generate (client g) prompt (forwarded d o) (world st) = (Ok resp, w') ->
  (forall m, resp <> PyDict m) ->
  raises (run_ self prompt kw st).1 "TypeError"
  /\ world (run_ self prompt kw st).2 = w'.
Proof.
  intros Hself Hd Hkw Hgen Hresp.
  destruct (run_unfold self prompt kw st g d o Hself Hd Hkw)
    as (h' & lm & _ & _ & _ & ->).
  rewrite Hgen. simpl. split; [|reflexivity].
  destruct resp as [| | | | | | m]; try (eexists; reflexivity).
  by destruct (Hresp m).
Qed.

(** X7: whenever [run] returns, it returns a mapping with exactly the
    entries [replies] and [meta], [replies] being a list of one element:
    the [text] entry of a mapping that the provider answered with. *)
Theorem run_returns_single_reply self prompt kw st g d o v :
  has_instance st self g ->
  has_dict st (generation_kwargs g) d ->
  call_kwargs st kw o ->
  (run_ self prompt kw st).1 = Ok v ->
  exists m text,
    (generate (client g) prompt (forwarded d o) (world st)).1 = Ok (PyDict m)
    /\ m !! "text" = Some text
    /\ v = PyDict {[ "replies" := PyList [text];
                     "meta" := default (PyDict ∅) (m !! "meta") ]}.
Proof.
  intros Hself Hd Hkw.
  destruct (run_unfold self prompt kw st g d o Hself Hd Hkw)
    as (h' & lm & _ & _ & _ & ->).
  destruct (generate (client g) prompt (forwarded d o) (world st)) as [[resp|e] w'];
    simpl; [|discriminate].
  destruct resp as [| | | | | | m]; try discriminate.
  unfold reply, getitem, dict_get.
  destruct (m !! "text") as [text|] eqn:Htext; simpl; [|discriminate].
  intros Hv. exists m, text. split; [reflexivity|]. split; [exact Htext|].
  destruct (m !! "meta"); simpl in *; congruence.
Qed.

(** *** [run]: what the outcome depends on *)

Lemma forwarded_agree d o1 o2 :
  o1 !! "max_tokens" = o2 !! "max_tokens" ->
  o1 !! "temperature" = o2 !! "temperature" ->
  forwarded d o1 = forwarded d o2.
Proof.
  intros Hm Ht. apply map_eq. intros k. apply option_eq. intros v.
  rewrite !forwarded_lookup. unfold py_dict_merge.
  split; intros [[->| ->] Hk]; (split; [auto|]);
    rewrite lookup_union in Hk |- *; congruence.
Qed.

(** X8: two calls of [run] in the same state whose per-call options agree
    on [max_tokens] and on [temperature] have the same result and leave
    the same world, whatever else the options hold: omitted options, an
    empty dict and a dict of unknown names are all alike. *)
Theorem run_ignores_other_options self prompt kw1 kw2 st g d o1 o2 :
  has_instance st self g ->
  has_dict st (generation_kwargs g) d ->
  call_kwargs st kw1 o1 ->
  call_kwargs st kw2 o2 ->
  o1 !! "max_tokens" = o2 !! "max_tokens" ->
  o1 !! "temperature" = o2 !! "temperature" ->
  (run_ self prompt kw1 st).1 = (run_ self prompt kw2 st).1
  /\ world (run_ self prompt kw1 st).2 = world (run_ self prompt kw2 st).2.
Proof.
  intros Hself Hd Hkw1 Hkw2 Hm Ht.
  destruct (run_unfold self prompt kw1 st g d o1 Hself Hd Hkw1)
    as (h1 & l1 & _ & _ & _ & ->).
  destruct (run_unfold self prompt kw2 st g d o2 Hself Hd Hkw2)
    as (h2 & l2 & _ & _ & _ & ->).
  rewrite (forwarded_agree d o1 o2 Hm Ht). by split.
Qed.

(** X9: per-call options last for one call.  After a call of [run] with
    any per-call options, whether it returned or raised, a call without
    per-call options sends the allowed entries of the defaults and nothing
    else. *)
Theorem run_overrides_do_not_persist self p1 p2 kw st g d :
  has_instance st self g ->
  has_dict st (generation_kwargs g) d ->
  (run_ self p2 None (run_ self p1 kw st).2).1
  = result_bind
      (generate (client g) p2
         (filter (fun kv => kv.1 ∈ ALLOWED_PARAMS) d)
         (world (run_ self p1 kw st).2)).1
      reply.
Proof.
  intros Hself Hd. pose proof (extends_run self p1 kw st) as Hsub.
  assert (Hself1 : has_instance (run_ self p1 kw st).2 self g)
    by (eapply lookup_weaken; eassumption).
  assert (Hd1 : has_dict (run_ self p1 kw st).2 (generation_kwargs g) d)
    by (eapply lookup_weaken; eassumption).
  destruct (run_unfold self p2 None _ g d ∅ Hself1 Hd1 eq_refl)
    as (h' & lm & _ & _ & _ & ->).
  unfold forwarded, py_dict_merge. by rewrite (left_id_L ∅ (∪)).
Qed.

(** *** Export and import: the state *)

(** X10: [to_dict] never changes the state, whether it returns a mapping
    or raises: it allocates nothing and does not reach the world. *)
Theorem to_dict_leaves_state self st :
  (to_dict Secret_to_dict callable_truthy default_to_dict serialize_callable
     self st).2 = st.
Proof.
  unfold to_dict, bind, load_self.
  destruct (heap st !! self) as [[?|g]|]; try reflexivity.
  assert (Hrest : forall callback_name,
    (let (r, st0) := load_global "default_to_dict" st in
     match r with
     | Ok _ =>
         let (r0, st'0) := load_dict (generation_kwargs g) st0 in
         match r0 with
         | Ok a0 =>
             let (r1, st'1) := lift (Secret_to_dict (api_key g)) st'0 in
             match r1 with
             | Ok a1 =>
                 ret (default_to_dict
                        {[ "model" := PyStr (model g);
                           "streaming_callback" := callback_name;
                           "generation_kwargs" := PyDict a0;
                           "api_key" := a1 ]}) st'1
             | Raise e => (Raise e, st'1)
             end
         | Raise e => (Raise e, st'0)
         end
     | Raise e => (Raise e, st0)
     end).2 = st).
  { intros callback_name. unfold load_global.
    change (is_bound "default_to_dict") with true. cbv iota.
    unfold ret, load_dict, lift.
    destruct (heap st !! generation_kwargs g) as [[?|?]|]; try reflexivity.
    destruct (Secret_to_dict (api_key g)); reflexivity. }
  destruct (streaming_callback g) as [cb|]; [|apply Hrest].
  destruct (callable_truthy cb); [reflexivity|apply Hrest].
Qed.

(** X11: [from_dict] raises the [NameError] of
    [deserialize_secrets_inplace] for every argument, mapping or not, in
    every state, and leaves the state as it was: [default_from_dict] is
    never reached, so no generator is ever built by [from_dict]. *)
Theorem from_dict_always_raises data st :
  from_dict deserialize_secrets_inplace default_from_dict data st
  = (Raise (NameError "deserialize_secrets_inplace"), st)
  /\ raises (from_dict deserialize_secrets_inplace default_from_dict data st).1
       "NameError".
Proof.
  rewrite from_dict_unbound_name. split; [reflexivity|].
  eexists. reflexivity.
Qed.

(** *** Sharing of the default options *)

(** X12: a non-empty dict passed to [__init__] stays shared.  When the
    caller changes its entries to [d'] after construction, the next call
    of [run] sends the allowed entries of [d'], not those the generator
    was constructed with. *)
Theorem init_shares_nonempty_dict ak mo cb l0 st d d' self st' prompt :
  has_dict st l0 d ->
  d <> ∅ ->
  init_ ak mo cb (Some l0) st = (Ok self, st') ->
  exists g,
    has_instance (store_dict l0 d' st') self g
    /\ generation_kwargs g = l0
    /\ (run_ self prompt None (store_dict l0 d' st')).1
       = result_bind
           (generate (client g) prompt
              (filter (fun kv => kv.1 ∈ ALLOWED_PARAMS) d') (world st')).1
           reply.
Proof.
  intros Hd Hne Hinit.
  destruct (init_ok_inv ak mo cb (Some l0) st d self st' Hd Hinit)
    as (l & key & c & _ & _ & Hfresh & Hself & Hd' & Hshare & _).
  specialize (Hshare Hne). injection Hshare as <-.
  assert (Hneq : l0 <> self).
  { intros ->. unfold has_dict in Hd. congruence. }
  assert (Hself2 : has_instance (store_dict l0 d' st') self
            {| api_key := default (Secret_from_env_var "UNIFY_API_KEY") ak;
               model := default "mistral-7b-instruct-v0.2@fireworks-ai" mo;
               generation_kwargs := l0;
               streaming_callback := cb;
               client := c |}).
  { unfold has_instance, store_dict. cbn [heap].
    by rewrite lookup_insert_ne. }
  assert (Hd2 : has_dict (store_dict l0 d' st') l0 d').
  { unfold has_dict, store_dict. cbn [heap]. apply lookup_insert_eq. }
  eexists. split; [exact Hself2|]. split; [reflexivity|].
  destruct (run_unfold self prompt None _ _ d' ∅ Hself2 Hd2 eq_refl)
    as (h' & lm & _ & _ & _ & ->).
  unfold forwarded, py_dict_merge. cbn [fst client world store_dict].
  by rewrite (left_id_L ∅ (∪)).
Qed.

(** X13: an empty dict passed to [__init__] is not shared ([{}] is falsy,
    so line 33 stores a new dict).  When the caller fills it with [d']
    after construction, the generator's defaults are still empty and a
    call of [run] without per-call options sends no option at all. *)
Theorem init_does_not_share_empty_dict ak mo cb l0 st d' self st' prompt :
  has_dict st l0 ∅ ->
  init_ ak mo cb (Some l0) st = (Ok self, st') ->
  exists g,
    has_instance (store_dict l0 d' st') self g
    /\ generation_kwargs g <> l0
    /\ has_dict (store_dict l0 d' st') (generation_kwargs g) ∅
    /\ (run_ self prompt None (store_dict l0 d' st')).1
       = result_bind (generate (client g) prompt ∅ (world st')).1 reply.
Proof.
  intros Hd Hinit.
  destruct (init_ok_inv ak mo cb (Some l0) st ∅ self st' Hd Hinit)
    as (l & key & c & _ & _ & Hfresh & Hself & Hd' & _ & Hnew & _).
  specialize (Hnew eq_refl).
  assert (Hneq : l0 <> self).
  { intros ->. unfold has_dict in Hd. congruence. }
  assert (Hneq' : l <> l0).
  { intros ->. unfold has_dict in Hd. congruence. }
  assert (Hself2 : has_instance (store_dict l0 d' st') self
            {| api_key := default (Secret_from_env_var "UNIFY_API_KEY") ak;
               model := default "mistral-7b-instruct-v0.2@fireworks-ai" mo;
               generation_kwargs := l;
               streaming_callback := cb;
               client := c |}).
  { unfold has_instance, store_dict. cbn [heap].
    by rewrite lookup_insert_ne. }
  assert (Hd2 : has_dict (store_dict l0 d' st') l ∅).
  { unfold has_dict, store_dict. cbn [heap].
    by rewrite lookup_insert_ne. }
  eexists. split; [exact Hself2|]. split; [exact Hneq'|]. split; [exact Hd2|].
  destruct (run_unfold self prompt None _ _ ∅ ∅ Hself2 Hd2 eq_refl)
    as (h' & lm & _ & _ & _ & ->).
  unfold forwarded, py_dict_merge. cbn [fst client world store_dict].
  by rewrite (left_id_L ∅ (∪)), map_filter_empty.
Qed.

(** *** [run]: what it does not use *)

(** X14: [run] uses neither the streaming callback nor the credential of
    the generator: two generators with the same client and the same
    default entries give the same result and leave the same world,
    whatever their callbacks, credentials and model attributes are. *)
Theorem run_ignores_callback_and_credential
    self1 self2 prompt kw1 kw2 st1 st2 g1 g2 d o :
  has_instance st1 self1 g1 ->
  has_instance st2 self2 g2 ->
  has_dict st1 (generation_kwargs g1) d ->
  has_dict st2 (generation_kwargs g2) d ->
  call_kwargs st1 kw1 o ->
  call_kwargs st2 kw2 o ->
  client g1 = client g2 ->
  world st1 = world st2 ->
  (run_ self1 prompt kw1 st1).1 = (run_ self2 prompt kw2 st2).1
  /\ world (run_ self1 prompt kw1 st1).2 = world (run_ self2 prompt kw2 st2).2.
Proof.
  intros Hs1 Hs2 Hd1 Hd2 Hk1 Hk2 Hc Hw.
  destruct (run_unfold self1 prompt kw1 st1 g1 d o Hs1 Hd1 Hk1)
    as (h1 & l1 & _ & _ & _ & ->).
  destruct (run_unfold self2 prompt kw2 st2 g2 d o Hs2 Hd2 Hk2)
    as (h2 & l2 & _ & _ & _ & ->).
  rewrite Hc, Hw. by split.
Qed.

End Theory.

(** ** The adapter on concrete inputs *)

Section Concrete.

Import Stub.

Local Open Scope positive_scope.

(** The two examples of the specification. *)
Example run_hello_with_meta :
  (stub_run (Ok (PyDict hi_with_meta)) 2 "hello" None (the_state None env_secret)).1
  = Ok (PyDict {[ "replies" := PyList [PyStr "hi"];
                  "meta" := PyDict {[ "tokens" := PyInt 2 ]} ]}).
Proof. vm_compute. reflexivity. Qed.

Example run_hello_without_meta :
  (stub_run (Ok (PyDict hi_without_meta)) 2 "hello" None (the_state None env_secret)).1
  = Ok (PyDict {[ "replies" := PyList [PyStr "hi"]; "meta" := PyDict ∅ ]}).
Proof. vm_compute. reflexivity. Qed.

(** With defaults [{"temperature": 1, "top_p": 2}] and per-call options
    [{"temperature": 3, "stop": "x"}], the provider sees one request, with
    [temperature = 3] only. *)
Example run_request_seen_by_provider :
  provider_log
    (world (stub_run (Ok (PyDict hi_without_meta)) 2 "hello" (Some 3)
              (the_state None env_secret)).2)
  = [Generated "hello" [("temperature", PyInt 3)]].
Proof. vm_compute. reflexivity. Qed.

(** Without a credential in the environment nothing reaches the provider. *)
Example init_without_credential_contacts_nobody :
  provider_log
    (world (stub_init [the_model] None None None None
              {| heap := ∅; world := empty_world |}).2)
  = [].
Proof. vm_compute. reflexivity. Qed.

Lemma run_forwards_only_allowed_witness :
  has_instance (the_state None env_secret) 2 (the_generator None env_secret)
  /\ has_dict (the_state None env_secret) 1 the_defaults
  /\ call_kwargs (the_state None env_secret) (Some 3) the_overrides
  /\ exists fk,
      (forall k v,
          fk !! k = Some v <->
          (k = "max_tokens" \/ k = "temperature")
          /\ py_dict_merge the_defaults the_overrides !! k = Some v)
      /\ (forall k, k ∉ ALLOWED_PARAMS -> fk !! k = None)
      /\ (stub_run (Ok (PyDict hi_without_meta)) 2 "hello" (Some 3)
            (the_state None env_secret)).1
         = result_bind
             (generate (Ok (PyDict hi_without_meta))
                (client (the_generator None env_secret)) "hello" fk
                (world (the_state None env_secret))).1
             reply
      /\ world (stub_run (Ok (PyDict hi_without_meta)) 2 "hello" (Some 3)
                  (the_state None env_secret)).2
         = (generate (Ok (PyDict hi_without_meta))
              (client (the_generator None env_secret)) "hello" fk
              (world (the_state None env_secret))).2.
Proof.
  split; [reflexivity|]. split; [reflexivity|]. split; [reflexivity|].
  apply (run_forwards_only_allowed (generate (Ok (PyDict hi_without_meta)))
           2 "hello" (Some 3) (the_state None env_secret)
           (the_generator None env_secret) the_defaults the_overrides);
    reflexivity.
Defined.

Lemma run_call_options_override_witness :
  has_instance (the_state None env_secret) 2 (the_generator None env_secret)
  /\ has_dict (the_state None env_secret) 1 the_defaults
  /\ call_kwargs (the_state None env_secret) (Some 3) the_overrides
  /\ exists lm merged,
      heap (the_state None env_secret) !! lm = None
      /\ has_dict (stub_run (Ok (PyDict hi_without_meta)) 2 "hello" (Some 3)
                  (the_state None env_secret)).2 lm merged
      /\ (forall k v, the_overrides !! k = Some v -> merged !! k = Some v)
      /\ (forall k, the_overrides !! k = None -> merged !! k = the_defaults !! k)
      /\ (stub_run (Ok (PyDict hi_without_meta)) 2 "hello" (Some 3)
            (the_state None env_secret)).1
         = result_bind
             (generate (Ok (PyDict hi_without_meta))
                (client (the_generator None env_secret)) "hello"
                (filter (fun kv => kv.1 ∈ ALLOWED_PARAMS) merged)
                (world (the_state None env_secret))).1
             reply.
Proof.
  split; [reflexivity|]. split; [reflexivity|]. split; [reflexivity|].
  apply (run_call_options_override (generate (Ok (PyDict hi_without_meta)))
           2 "hello" (Some 3) (the_state None env_secret)
           (the_generator None env_secret) the_defaults the_overrides);
    reflexivity.
Defined.

Lemma run_reply_shape_witness :
  has_instance (the_state None env_secret) 2 (the_generator None env_secret)
  /\ has_dict (the_state None env_secret) 1 the_defaults
  /\ call_kwargs (the_state None env_secret) None ∅
  /\ hi_without_meta !! "text" = Some (PyStr "hi")
  /\ (stub_run (Ok (PyDict hi_without_meta)) 2 "hello" None
        (the_state None env_secret)).1
     = Ok (PyDict {[ "replies" := PyList [PyStr "hi"];
                     "meta" := default (PyDict ∅) (hi_without_meta !! "meta") ]}).
Proof.
  split; [reflexivity|]. split; [reflexivity|]. split; [reflexivity|].
  split; [reflexivity|].
  apply (run_reply_shape (generate (Ok (PyDict hi_without_meta)))
           2 "hello" None (the_state None env_secret)
           (the_generator None env_secret) the_defaults ∅ hi_without_meta
           (PyStr "hi")
           {| environ := environ keyed_world;
              provider_log :=
                [Generated "hello" (map_to_list (forwarded the_defaults ∅))] |});
    reflexivity.
Defined.

Lemma run_propagates_provider_failure_witness :
  has_instance (the_state None env_secret) 2 (the_generator None env_secret)
  /\ has_dict (the_state None env_secret) 1 the_defaults
  /\ call_kwargs (the_state None env_secret) (Some 3) the_overrides
  /\ (stub_run (Raise overloaded) 2 "hello" (Some 3) (the_state None env_secret)).1
     = Raise overloaded
  /\ world (stub_run (Raise overloaded) 2 "hello" (Some 3)
              (the_state None env_secret)).2
     = {| environ := environ keyed_world;
          provider_log :=
            [Generated "hello"
               (map_to_list (forwarded the_defaults the_overrides))] |}.
Proof.
  split; [reflexivity|]. split; [reflexivity|]. split; [reflexivity|].
  apply (run_propagates_provider_failure (generate (Raise overloaded))
           2 "hello" (Some 3) (the_state None env_secret)
           (the_generator None env_secret) the_defaults the_overrides);
    reflexivity.
Defined.

Lemma run_leaves_configuration_witness :
  has_instance (the_state None env_secret) 2 (the_generator None env_secret)
  /\ has_dict (the_state None env_secret) 1 the_defaults
  /\ has_instance
       (stub_run (Ok (PyDict hi_with_meta)) 2 "hello" (Some 3)
          (the_state None env_secret)).2
       2 (the_generator None env_secret)
  /\ has_dict
       (stub_run (Ok (PyDict hi_with_meta)) 2 "hello" (Some 3)
          (the_state None env_secret)).2
       1 the_defaults
  /\ heap (the_state None env_secret)
     ⊆ heap (stub_run (Ok (PyDict hi_with_meta)) 2 "hello" (Some 3)
               (the_state None env_secret)).2.
Proof.
  split; [reflexivity|]. split; [reflexivity|].
  apply (run_leaves_configuration (generate (Ok (PyDict hi_with_meta)))
           2 "hello" (Some 3) (the_state None env_secret)
           (the_generator None env_secret) the_defaults);
    reflexivity.
Defined.

(** *** Construction *)

(** C7, as stated, fails: the credential resolves from the environment and
    construction raises all the same, because the client class rejects the
    endpoint. *)
Lemma init_fails_with_resolved_credential :
  resolve_value (Secret_from_env_var "UNIFY_API_KEY") keyed_world
  = Ok (Some "k-123")
  /\ (stub_init [] None None None None {| heap := ∅; world := keyed_world |}).1
     = Raise (UnifyError "unknown endpoint").
Proof. split; vm_compute; reflexivity. Qed.

Lemma init_failure_modes_witness :
  resolve_value (Secret_from_env_var "UNIFY_API_KEY") empty_world
  = Raise (ValueError "authentication environment variable not set")
  /\ (stub_init [the_model] None None None None
        {| heap := ∅; world := empty_world |}).1
     = Raise (ValueError "authentication environment variable not set")
  /\ world (stub_init [the_model] None None None None
              {| heap := ∅; world := empty_world |}).2
     = empty_world.
Proof.
  split; [reflexivity|].
  apply (proj1 (init_failure_modes Secret_from_env_var resolve_value
                  (Unify [the_model]) None None None None
                  {| heap := ∅; world := empty_world |})).
  reflexivity.
Defined.

(** *** Export and import *)

(** C9, as stated, fails twice.  A generator without a callback whose
    credential is a token exports nothing: the credential refuses to be
    serialized.  A generator whose callback is an empty collector (not
    [None], but falsy) exports a mapping and meets no [NameError]. *)
Lemma to_dict_not_decided_by_None :
  streaming_callback (the_generator None token_secret) = None
  /\ stub_to_dict 2 (the_state None token_secret)
     = (Raise (ValueError "cannot serialize token-based secret"),
        the_state None token_secret)
  /\ streaming_callback (the_generator (Some (Collector [])) env_secret)
     = Some (Collector [])
  /\ exists m,
      stub_to_dict 2 (the_state (Some (Collector [])) env_secret)
      = (Ok m, the_state (Some (Collector [])) env_secret).
Proof.
  split; [reflexivity|]. split; [vm_compute; reflexivity|].
  split; [reflexivity|]. eexists. vm_compute. reflexivity.
Qed.

Lemma to_dict_by_callback_witness :
  has_instance (the_state (Some (Function "on_chunk")) env_secret) 2
    (the_generator (Some (Function "on_chunk")) env_secret)
  /\ has_dict (the_state (Some (Function "on_chunk")) env_secret) 1 the_defaults
  /\ callback_falsy callable_truthy
       (the_generator (Some (Function "on_chunk")) env_secret) = false
  /\ stub_to_dict 2 (the_state (Some (Function "on_chunk")) env_secret)
     = (Raise (NameError "serialize_callable"),
        the_state (Some (Function "on_chunk")) env_secret).
Proof.
  split; [reflexivity|]. split; [reflexivity|]. split; [reflexivity|].
  apply (to_dict_by_callback Secret_to_dict callable_truthy default_to_dict
           serialize_callable 2
           (the_state (Some (Function "on_chunk")) env_secret)
           (the_generator (Some (Function "on_chunk")) env_secret)
           the_defaults);
    reflexivity.
Defined.

Lemma to_dict_exports_secret_reference_witness :
  has_instance (the_state None env_secret) 2 (the_generator None env_secret)
  /\ has_dict (the_state None env_secret) 1 the_defaults
  /\ stub_to_dict 2 (the_state None env_secret)
     = (Ok exported_state, the_state None env_secret)
  /\ exists ref,
      Secret_to_dict (api_key (the_generator None env_secret)) = Ok ref
      /\ exported_state
         = default_to_dict
             {[ "model" := PyStr (model (the_generator None env_secret));
                "streaming_callback" := PyNone;
                "generation_kwargs" := PyDict the_defaults;
                "api_key" := ref ]}.
Proof.
  split; [reflexivity|]. split; [reflexivity|]. split; [reflexivity|].
  apply (proj1 (to_dict_exports_secret_reference Secret_to_dict
                  callable_truthy default_to_dict serialize_callable 2
                  (the_state None env_secret) (the_generator None env_secret)
                  the_defaults exported_state (the_state None env_secret)
                  eq_refl eq_refl eq_refl)).
Defined.

(** C2 on the code: the state that [to_dict] exports cannot be imported;
    [from_dict] raises [NameError] on it and builds no generator. *)
Theorem export_then_import_raises_NameError :
  stub_to_dict 2 (the_state None env_secret)
  = (Ok exported_state, the_state None env_secret)
  /\ stub_from_dict exported_state (the_state None env_secret)
     = (Raise (NameError "deserialize_secrets_inplace"),
        the_state None env_secret).
Proof.
  split; [vm_compute; reflexivity|].
  apply from_dict_unbound_name.
Qed.

(** C3 on the code: for a state without an [api_key] entry the exception
    that [from_dict] raises is the [NameError] of the helper that is not
    imported, the same one it raises for the well-formed state above; the
    state is never looked at. *)
Theorem import_without_credential_raises_NameError :
  result_bind (getitem state_without_credential "init_parameters")
    (fun ps => getitem ps "api_key")
  = Raise (KeyError "api_key")
  /\ (stub_from_dict state_without_credential (the_state None env_secret)).1
     = Raise (Exn "NameError" "name 'deserialize_secrets_inplace' is not defined").
Proof. split; vm_compute; reflexivity. Qed.

(** ** Further properties on concrete inputs *)

Lemma init_builds_generator_witness :
  resolve_value (Secret_from_env_var "UNIFY_API_KEY") (world bare_state)
  = Ok (Some "k-123")
  /\ Unify [the_model] the_model (Some "k-123") (world bare_state)
     = (Ok the_client, connected_world)
  /\ exists self l,
      (stub_init [the_model] None None None (Some 1) bare_state).1 = Ok self
      /\ heap bare_state !! self = None
      /\ has_instance (stub_init [the_model] None None None (Some 1) bare_state).2
           self
           {| api_key := Secret_from_env_var "UNIFY_API_KEY";
              model := the_model;
              generation_kwargs := l;
              streaming_callback := None;
              client := the_client |}
      /\ world (stub_init [the_model] None None None (Some 1) bare_state).2
         = connected_world
      /\ heap bare_state
         ⊆ heap (stub_init [the_model] None None None (Some 1) bare_state).2.
Proof.
  split; [reflexivity|]. split; [reflexivity|].
  apply (init_builds_generator Secret_from_env_var resolve_value
           (Unify [the_model]) None None None (Some 1) bare_state
           (Some "k-123") the_client connected_world);
    reflexivity.
Defined.

Lemma init_default_options_witness :
  call_kwargs bare_state (Some 1) the_defaults
  /\ stub_init [the_model] None None None (Some 1) bare_state
     = (Ok 2, built_state)
  /\ exists g,
      has_instance built_state 2 g
      /\ has_dict built_state (generation_kwargs g) the_defaults
      /\ (the_defaults <> ∅ -> Some 1 = Some (generation_kwargs g))
      /\ (the_defaults = ∅ -> heap bare_state !! generation_kwargs g = None).
Proof.
  split; [reflexivity|]. split; [vm_compute; reflexivity|].
  apply (init_default_options Secret_from_env_var resolve_value
           (Unify [the_model]) None None None (Some 1) bare_state
           the_defaults 2 built_state);
    [reflexivity | vm_compute; reflexivity].
Defined.

Lemma init_then_to_dict_witness :
  call_kwargs bare_state (Some 1) the_defaults
  /\ stub_init [the_model] None None None (Some 1) bare_state
     = (Ok 2, built_state)
  /\ Secret_to_dict (Secret_from_env_var "UNIFY_API_KEY")
     = Ok (PyDict {[ "type" := PyStr "env_var";
                     "env_vars" := PyList [PyStr "UNIFY_API_KEY"];
                     "strict" := PyBool true ]})
  /\ stub_to_dict 2 built_state
     = (Ok (default_to_dict
              {[ "model" := PyStr the_model;
                 "streaming_callback" := PyNone;
                 "generation_kwargs" := PyDict the_defaults;
                 "api_key" :=
                   PyDict {[ "type" := PyStr "env_var";
                             "env_vars" := PyList [PyStr "UNIFY_API_KEY"];
                             "strict" := PyBool true ]} ]}),
        built_state).
Proof.
  split; [reflexivity|]. split; [vm_compute; reflexivity|].
  split; [reflexivity|].
  apply (init_then_to_dict Secret_from_env_var resolve_value Secret_to_dict
           (Unify [the_model]) callable_truthy default_to_dict
           serialize_callable None None (Some 1) bare_state the_defaults 2
           built_state);
    [reflexivity | vm_compute; reflexivity | reflexivity].
Defined.

Lemma init_then_run_witness :
  call_kwargs bare_state (Some 1) the_defaults
  /\ stub_init [the_model] None None None (Some 1) bare_state
     = (Ok 2, built_state)
  /\ call_kwargs built_state None ∅
  /\ exists key c,
      resolve_value (Secret_from_env_var "UNIFY_API_KEY") (world bare_state)
      = Ok key
      /\ Unify [the_model] the_model key (world bare_state)
         = (Ok c, world built_state)
      /\ (stub_run (Ok (PyDict hi_without_meta)) 2 "hello" None built_state).1
         = result_bind
             (generate (Ok (PyDict hi_without_meta)) c "hello"
                (forwarded the_defaults ∅) (world built_state)).1
             reply
      /\ world (stub_run (Ok (PyDict hi_without_meta)) 2 "hello" None
                  built_state).2
         = (generate (Ok (PyDict hi_without_meta)) c "hello"
              (forwarded the_defaults ∅) (world built_state)).2.
Proof.
  split; [reflexivity|]. split; [vm_compute; reflexivity|].
  split; [reflexivity|].
  apply (init_then_run Secret_from_env_var resolve_value (Unify [the_model])
           (generate (Ok (PyDict hi_without_meta))) None None None (Some 1)
           bare_state the_defaults 2 built_state "hello" None ∅);
    [reflexivity | vm_compute; reflexivity | reflexivity].
Defined.

Lemma run_response_without_text_witness :
  has_instance (the_state None env_secret) 2 (the_generator None env_secret)
  /\ has_dict (the_state None env_secret) 1 the_defaults
  /\ call_kwargs (the_state None env_secret) None ∅
  /\ meta_only !! "text" = None
  /\ (stub_run (Ok (PyDict meta_only)) 2 "hello" None
        (the_state None env_secret)).1
     = Raise (KeyError "text")
  /\ world (stub_run (Ok (PyDict meta_only)) 2 "hello" None
              (the_state None env_secret)).2
     = logged keyed_world "hello" (forwarded the_defaults ∅).
Proof.
  split; [reflexivity|]. split; [reflexivity|]. split; [reflexivity|].
  split; [reflexivity|].
  apply (run_response_without_text (generate (Ok (PyDict meta_only)))
           2 "hello" None (the_state None env_secret)
           (the_generator None env_secret) the_defaults ∅ meta_only
           (logged keyed_world "hello" (forwarded the_defaults ∅)));
    reflexivity.
Defined.

Lemma run_response_not_a_mapping_witness :
  has_instance (the_state None env_secret) 2 (the_generator None env_secret)
  /\ has_dict (the_state None env_secret) 1 the_defaults
  /\ call_kwargs (the_state None env_secret) None ∅
  /\ (forall m, PyStr "hi" <> PyDict m)
  /\ raises (stub_run (Ok (PyStr "hi")) 2 "hello" None
               (the_state None env_secret)).1 "TypeError"
  /\ world (stub_run (Ok (PyStr "hi")) 2 "hello" None
              (the_state None env_secret)).2
     = logged keyed_world "hello" (forwarded the_defaults ∅).
Proof.
  split; [reflexivity|]. split; [reflexivity|]. split; [reflexivity|].
  split; [discriminate|].
  apply (run_response_not_a_mapping (generate (Ok (PyStr "hi")))
           2 "hello" None (the_state None env_secret)
           (the_generator None env_secret) the_defaults ∅ (PyStr "hi")
           (logged keyed_world "hello" (forwarded the_defaults ∅)));
    [reflexivity | reflexivity | reflexivity | reflexivity | discriminate].
Defined.

Lemma run_returns_single_reply_witness :
  has_instance (the_state None env_secret) 2 (the_generator None env_secret)
  /\ has_dict (the_state None env_secret) 1 the_defaults
  /\ call_kwargs (the_state None env_secret) (Some 3) the_overrides
  /\ (stub_run (Ok (PyDict hi_with_meta)) 2 "hello" (Some 3)
        (the_state None env_secret)).1
     = Ok (PyDict {[ "replies" := PyList [PyStr "hi"];
                     "meta" := PyDict {[ "tokens" := PyInt 2 ]} ]})
  /\ exists m text,
      (generate (Ok (PyDict hi_with_meta))
         (client (the_generator None env_secret)) "hello"
         (forwarded the_defaults the_overrides)
         (world (the_state None env_secret))).1 = Ok (PyDict m)
      /\ m !! "text" = Some text
      /\ PyDict {[ "replies" := PyList [PyStr "hi"];
                   "meta" := PyDict {[ "tokens" := PyInt 2 ]} ]}
         = PyDict {[ "replies" := PyList [text];
                     "meta" := default (PyDict ∅) (m !! "meta") ]}.
Proof.
  split; [reflexivity|]. split; [reflexivity|]. split; [reflexivity|].
  split; [vm_compute; reflexivity|].
  apply (run_returns_single_reply (generate (Ok (PyDict hi_with_meta)))
           2 "hello" (Some 3) (the_state None env_secret)
           (the_generator None env_secret) the_defaults the_overrides);
    [reflexivity | reflexivity | reflexivity | vm_compute; reflexivity].
Defined.

Lemma run_ignores_other_options_witness :
  has_instance wide_state 2 (the_generator None env_secret)
  /\ has_dict wide_state 1 the_defaults
  /\ call_kwargs wide_state (Some 3) the_overrides
  /\ call_kwargs wide_state (Some 4) seeded_options
  /\ the_overrides !! "max_tokens" = seeded_options !! "max_tokens"
  /\ the_overrides !! "temperature" = seeded_options !! "temperature"
  /\ (stub_run (Ok (PyDict hi_without_meta)) 2 "hello" (Some 3) wide_state).1
     = (stub_run (Ok (PyDict hi_without_meta)) 2 "hello" (Some 4) wide_state).1
  /\ world (stub_run (Ok (PyDict hi_without_meta)) 2 "hello" (Some 3)
              wide_state).2
     = world (stub_run (Ok (PyDict hi_without_meta)) 2 "hello" (Some 4)
                wide_state).2.
Proof.
  split; [reflexivity|]. split; [reflexivity|]. split; [reflexivity|].
  split; [reflexivity|]. split; [reflexivity|]. split; [reflexivity|].
  apply (run_ignores_other_options (generate (Ok (PyDict hi_without_meta)))
           2 "hello" (Some 3) (Some 4) wide_state
           (the_generator None env_secret) the_defaults the_overrides
           seeded_options);
    reflexivity.
Defined.

Lemma run_overrides_do_not_persist_witness :
  has_instance (the_state None env_secret) 2 (the_generator None env_secret)
  /\ has_dict (the_state None env_secret) 1 the_defaults
  /\ (stub_run (Ok (PyDict hi_without_meta)) 2 "again" None
        (stub_run (Ok (PyDict hi_without_meta)) 2 "hello" (Some 3)
           (the_state None env_secret)).2).1
     = result_bind
         (generate (Ok (PyDict hi_without_meta))
            (client (the_generator None env_secret)) "again"
            (filter (fun kv => kv.1 ∈ ALLOWED_PARAMS) the_defaults)
            (world (stub_run (Ok (PyDict hi_without_meta)) 2 "hello" (Some 3)
                      (the_state None env_secret)).2)).1
         reply.
Proof.
  split; [reflexivity|]. split; [reflexivity|].
  apply (run_overrides_do_not_persist (generate (Ok (PyDict hi_without_meta)))
           2 "hello" "again" (Some 3) (the_state None env_secret)
           (the_generator None env_secret) the_defaults);
    reflexivity.
Defined.

(** The provider's view of the two calls of the witness above: the second
    request carries the default [temperature] again. *)
Example run_twice_seen_by_provider :
  provider_log
    (world (stub_run (Ok (PyDict hi_without_meta)) 2 "again" None
              (stub_run (Ok (PyDict hi_without_meta)) 2 "hello" (Some 3)
                 (the_state None env_secret)).2).2)
  = [Generated "hello" [("temperature", PyInt 3)];
     Generated "again" [("temperature", PyInt 1)]].
Proof. vm_compute. reflexivity. Qed.

Lemma init_shares_nonempty_dict_witness :
  has_dict bare_state 1 the_defaults
  /\ the_defaults <> ∅
  /\ stub_init [the_model] None None None (Some 1) bare_state
     = (Ok 2, built_state)
  /\ exists g,
      has_instance (store_dict 1 {[ "max_tokens" := PyInt 9 ]} built_state) 2 g
      /\ generation_kwargs g = 1
      /\ (stub_run (Ok (PyDict hi_without_meta)) 2 "hello" None
            (store_dict 1 {[ "max_tokens" := PyInt 9 ]} built_state)).1
         = result_bind
             (generate (Ok (PyDict hi_without_meta)) (client g) "hello"
                (filter (fun kv => kv.1 ∈ ALLOWED_PARAMS)
                   {[ "max_tokens" := PyInt 9 ]})
                (world built_state)).1
             reply.
Proof.
  split; [reflexivity|]. split; [discriminate|].
  split; [vm_compute; reflexivity|].
  apply (init_shares_nonempty_dict Secret_from_env_var resolve_value
           (Unify [the_model]) (generate (Ok (PyDict hi_without_meta)))
           None None None 1 bare_state the_defaults
           {[ "max_tokens" := PyInt 9 ]} 2 built_state "hello");
    [reflexivity | discriminate | vm_compute; reflexivity].
Defined.

Lemma init_does_not_share_empty_dict_witness :
  has_dict empty_dict_state 1 ∅
  /\ stub_init [the_model] None None None (Some 1) empty_dict_state
     = (Ok 3, built_own_state)
  /\ exists g,
      has_instance (store_dict 1 the_defaults built_own_state) 3 g
      /\ generation_kwargs g <> 1
      /\ has_dict (store_dict 1 the_defaults built_own_state)
           (generation_kwargs g) ∅
      /\ (stub_run (Ok (PyDict hi_without_meta)) 3 "hello" None
            (store_dict 1 the_defaults built_own_state)).1
         = result_bind
             (generate (Ok (PyDict hi_without_meta)) (client g) "hello" ∅
                (world built_own_state)).1
             reply.
Proof.
  split; [reflexivity|]. split; [vm_compute; reflexivity|].
  apply (init_does_not_share_empty_dict Secret_from_env_var resolve_value
           (Unify [the_model]) (generate (Ok (PyDict hi_without_meta)))
           None None None 1 empty_dict_state the_defaults 3 built_own_state
           "hello");
    [reflexivity | vm_compute; reflexivity].
Defined.

Lemma run_ignores_callback_and_credential_witness :
  has_instance (the_state None env_secret) 2 (the_generator None env_secret)
  /\ has_instance (the_state (Some (Function "on_chunk")) token_secret) 2
       (the_generator (Some (Function "on_chunk")) token_secret)
  /\ has_dict (the_state None env_secret) 1 the_defaults
  /\ has_dict (the_state (Some (Function "on_chunk")) token_secret) 1
       the_defaults
  /\ (stub_run (Ok (PyDict hi_without_meta)) 2 "hello" (Some 3)
        (the_state None env_secret)).1
     = (stub_run (Ok (PyDict hi_without_meta)) 2 "hello" (Some 3)
          (the_state (Some (Function "on_chunk")) token_secret)).1
  /\ world (stub_run (Ok (PyDict hi_without_meta)) 2 "hello" (Some 3)
              (the_state None env_secret)).2
     = world (stub_run (Ok (PyDict hi_without_meta)) 2 "hello" (Some 3)
                (the_state (Some (Function "on_chunk")) token_secret)).2.
Proof.
  split; [reflexivity|]. split; [reflexivity|]. split; [reflexivity|].
  split; [reflexivity|].
  apply (run_ignores_callback_and_credential
           (generate (Ok (PyDict hi_without_meta))) 2 2 "hello" (Some 3)
           (Some 3) (the_state None env_secret)
           (the_state (Some (Function "on_chunk")) token_secret)
           (the_generator None env_secret)
           (the_generator (Some (Function "on_chunk")) token_secret)
           the_defaults the_overrides);
    reflexivity.
Defined.

End Concrete.
